(** * mcp-weather-ukraine: the forecast tool of [src/index.ts]

    A shallow embedding of the request handler of the weather server and of
    the part of the JavaScript runtime it calls, followed by the properties
    of the handler and of the text formatter.

    - [JS]: strings as sequences of UTF-16 code units, Number values as
      IEEE 754 binary64, the conversions [Number::toString] and
      [Number.prototype.toFixed], [encodeURIComponent], the serializer of
      [URLSearchParams], completions (normal / throw).
    - [Weather]: the constants, [makeRequest], [geocodeCity],
      [formatForecastText] and the [get_forecast] handler, written in a
      monad that threads the network, the log of requests and exceptions.
    - [Spec]: the sections of the text, the branches of the resolution and
      the layouts, in the words of the specification.

    Data have the types the interfaces of the source declare: a response
    that parses is a [GeocodingResult] or an [OpenMeteoForecast] (the
    source casts, it does not validate), and the entries of the daily
    series, of type [any] in the source, are JSON scalars.  A string is
    any sequence of code units, an unpaired surrogate included; a number
    is any binary64 value. *)

From Stdlib Require Import ZArith NArith String Ascii List Bool Lia SpecFloat.
Import ListNotations.

Module JS.

(** ** Strings

    A JavaScript string is a finite sequence of 16-bit code units. *)

Definition code_unit := N.
Definition jsstring := list code_unit.

Local Open Scope N_scope.

Fixpoint bytes_of (s : string) : list N :=
  match s with
  | EmptyString => []
  | String c r => N_of_ascii c :: bytes_of r
  end.

(** Code points of a UTF-8 byte sequence (the encoding of this file's
    string literals). *)
Fixpoint utf8_points (bs : list N) : list N :=
  match bs with
  | [] => []
  | b :: r =>
      if b <? 0x80 then b :: utf8_points r
      else if b <? 0xE0 then
        match r with
        | c1 :: r1 => ((b mod 0x20) * 0x40 + c1 mod 0x40) :: utf8_points r1
        | [] => []
        end
      else if b <? 0xF0 then
        match r with
        | c1 :: c2 :: r2 =>
            ((b mod 0x10) * 0x1000 + (c1 mod 0x40) * 0x40 + c2 mod 0x40)
              :: utf8_points r2
        | _ => []
        end
      else
        match r with
        | c1 :: c2 :: c3 :: r3 =>
            ((b mod 0x08) * 0x40000 + (c1 mod 0x40) * 0x1000
             + (c2 mod 0x40) * 0x40 + c3 mod 0x40) :: utf8_points r3
        | _ => []
        end
  end.

Definition utf16_units (cp : N) : jsstring :=
  if cp <? 0x10000 then [cp]
  else [0xD800 + (cp - 0x10000) / 0x400; 0xDC00 + (cp - 0x10000) mod 0x400].

(** The JavaScript string denoted by a literal of this file. *)
Definition utf16 (s : string) : jsstring :=
  flat_map utf16_units (utf8_points (bytes_of s)).

(** Line feed, the code unit of the escape [\n]. *)
Definition LF : code_unit := 10.

(** ToBoolean on a string: only the empty string is falsy. *)
Definition truthy_string (s : jsstring) : bool :=
  match s with [] => false | _ :: _ => true end.

(** [Array.prototype.join] on an array of strings. *)
Fixpoint join (sep : jsstring) (xs : list jsstring) : jsstring :=
  match xs with
  | [] => []
  | [x] => x
  | x :: r => x ++ sep ++ join sep r
  end.

(** [String.prototype.split] with a separator of one code unit. *)
Fixpoint split (c : code_unit) (s : jsstring) : list jsstring :=
  match s with
  | [] => [[]]
  | x :: r =>
      if x =? c then [] :: split c r
      else match split c r with
           | h :: t => (x :: h) :: t
           | [] => [[x]]
           end
  end.

(** Decimal digits of a natural number, most significant first. *)
Fixpoint uint_units (d : Decimal.uint) : jsstring :=
  match d with
  | Decimal.Nil => []
  | Decimal.D0 r => 48 :: uint_units r
  | Decimal.D1 r => 49 :: uint_units r
  | Decimal.D2 r => 50 :: uint_units r
  | Decimal.D3 r => 51 :: uint_units r
  | Decimal.D4 r => 52 :: uint_units r
  | Decimal.D5 r => 53 :: uint_units r
  | Decimal.D6 r => 54 :: uint_units r
  | Decimal.D7 r => 55 :: uint_units r
  | Decimal.D8 r => 56 :: uint_units r
  | Decimal.D9 r => 57 :: uint_units r
  end.

Definition decimal (n : N) : jsstring := uint_units (N.to_uint n).

Definition zeros (k : nat) : jsstring := repeat 48 k.

(** ** Numbers

    A Number is an IEEE 754 binary64 value: [S754_finite s m e] is
    (-1)^s * m * 2^e. *)

Definition number := spec_float.

(** ToBoolean on a Number: +0, -0 and NaN are falsy. *)
Definition truthy_number (x : number) : bool :=
  match x with
  | S754_zero _ | S754_nan => false
  | S754_infinity _ | S754_finite _ _ _ => true
  end.

(** The Number nearest to the decimal literal [digits * 10^-scale], as the
    correctly rounded quotient of two exactly representable integers
    (scale <= 22). *)
Definition literal (digits : Z) (scale : N) : number :=
  SFdiv 53 1024
    (binary_normalize 53 1024 digits 0 false)
    (binary_normalize 53 1024 (Z.of_N (10 ^ scale)) 0 false).

(** The magnitude m * 2^e as a fraction of naturals. *)
Definition magnitude (m : positive) (e : Z) : N * N :=
  if (0 <=? e)%Z then (Npos m * 2 ^ Z.to_N e, 1)
  else (Npos m, 2 ^ Z.to_N (- e)).

(** *** Number::toString (radix 10)

    For a finite x > 0 the digits are those of the integers n, k, s with
    k >= 1, 10^(k-1) <= s < 10^k, s * 10^(n-k) rounding to x, and k as
    small as possible; among several s the one closest to x. *)

(** Least j >= 1 with q <= p * 10^j, for 0 < p < q. *)
Fixpoint scale_up (fuel : nat) (p q : N) (j : nat) : nat :=
  match fuel with
  | O => S j
  | S fuel' => if q <=? p * 10 then S j else scale_up fuel' (p * 10) q (S j)
  end.

(** The integer n with 10^(n-1) <= p/q < 10^n. *)
Definition decimal_exponent (p q : N) : Z :=
  if q <=? p then Z.of_nat (length (decimal (p / q)))
  else (1 - Z.of_nat (scale_up (length (decimal q)) p q 0))%Z.

(** The interval of the reals that round to m * 2^e, in units of
    2^(e-2): the value itself is 4m, the upper end 4m+2, the lower end
    4m-2, or 4m-1 just above a binade boundary.  The ends belong to the
    interval when m is even (ties to even). *)
Definition lower_end (m : positive) (e : Z) : N :=
  if (Npos m =? 2 ^ 52) && (-1074 <? e)%Z then 4 * Npos m - 1
  else 4 * Npos m - 2.

Definition upper_end (m : positive) : N := 4 * Npos m + 2.

Definition rounds_to (m : positive) (lo hi v : N) : bool :=
  if N.even (Npos m) then (lo <=? v) && (v <=? hi)
  else (lo <? v) && (v <? hi).

(** Search for the shortest digit string: [k] digits are tried with
    [fuel] further lengths in reserve.  With n the decimal exponent, a
    candidate s stands for s * 10^(n-k); [u] and [w] are the common
    scaling that makes s * u comparable with the interval ends times w. *)
Fixpoint shortest (fuel : nat) (m : positive) (e n : Z) (k : nat) : N * nat :=
  let a := if (Z.of_nat k <=? n)%Z then 10 ^ Z.to_N (n - Z.of_nat k) else 1 in
  let b := if (Z.of_nat k <=? n)%Z then 1 else 10 ^ Z.to_N (Z.of_nat k - n) in
  let A := if (2 <=? e)%Z then 2 ^ Z.to_N (e - 2) else 1 in
  let B := if (2 <=? e)%Z then 1 else 2 ^ Z.to_N (2 - e) in
  let u := a * B in
  let w := A * b in
  let x := 4 * Npos m * w in
  let lo := lower_end m e * w in
  let hi := upper_end m * w in
  let s0 := x / u in
  let s1 := s0 + 1 in
  let ok0 := rounds_to m lo hi (s0 * u) in
  let ok1 := rounds_to m lo hi (s1 * u) in
  let d0 := x - s0 * u in
  let d1 := s1 * u - x in
  let pick :=
    if ok0 && ok1 then
      if d0 <? d1 then Some s0
      else if d1 <? d0 then Some s1
      else if N.even s0 then Some s0 else Some s1
    else if ok0 then Some s0
    else if ok1 then Some s1
    else None in
  match pick, fuel with
  | Some s, _ => (s, k)
  | None, O => (s0, k)
  | None, S fuel' => shortest fuel' m e n (S k)
  end.

Definition exponential (ds : jsstring) (n : Z) : jsstring :=
  let c := (n - 1)%Z in
  let mant :=
    match ds with
    | [d] => [d]
    | _ => firstn 1 ds ++ utf16 "." ++ skipn 1 ds
    end in
  mant ++ utf16 "e" ++ (if (0 <=? c)%Z then utf16 "+" else utf16 "-")
       ++ decimal (Z.abs_N c).

Definition positional (ds : jsstring) (n : Z) : jsstring :=
  let k := Z.of_nat (length ds) in
  if (k <=? n)%Z && (n <=? 21)%Z then ds ++ zeros (Z.to_nat (n - k))
  else if (0 <? n)%Z && (n <=? 21)%Z then
    firstn (Z.to_nat n) ds ++ utf16 "." ++ skipn (Z.to_nat n) ds
  else if (-6 <? n)%Z && (n <=? 0)%Z then
    utf16 "0." ++ zeros (Z.to_nat (- n)) ++ ds
  else exponential ds n.

Definition finite_toString (m : positive) (e : Z) : jsstring :=
  let '(p, q) := magnitude m e in
  let n := decimal_exponent p q in
  let '(s, k) := shortest 16 m e n 1 in
  if s =? 10 ^ N.of_nat k
  then positional (decimal (s / 10)) (n + 1)
  else positional (decimal s) n.

Definition Number_toString (x : number) : jsstring :=
  match x with
  | S754_nan => utf16 "NaN"
  | S754_zero _ => utf16 "0"
  | S754_infinity false => utf16 "Infinity"
  | S754_infinity true => utf16 "-Infinity"
  | S754_finite false m e => finite_toString m e
  | S754_finite true m e => utf16 "-" ++ finite_toString m e
  end.

(** *** Number.prototype.toFixed

    [fixed f n] writes the integer n with the decimal point f digits
    from the right (steps 10.b and 10.c of the algorithm). *)
Definition fixed (f : nat) (n : N) : jsstring :=
  let m := decimal n in
  match f with
  | O => m
  | S _ =>
      let m := if (length m <=? f)%nat then zeros (f + 1 - length m) ++ m else m in
      let k := length m in
      firstn (k - f) m ++ utf16 "." ++ skipn (k - f) m
  end.

(** [x.toFixed(f)] for 0 <= f <= 100: not finite values print as
    Number::toString does; a magnitude of 10^21 or more likewise;
    otherwise the integer n nearest to |x| * 10^f, the larger of two. *)
Definition toFixed (f : nat) (x : number) : jsstring :=
  match x with
  | S754_nan | S754_infinity _ => Number_toString x
  | S754_zero _ => fixed f 0
  | S754_finite s m e =>
      let '(p, q) := magnitude m e in
      let sign := if s then utf16 "-" else [] in
      if 10 ^ 21 * q <=? p then sign ++ finite_toString m e
      else sign ++ fixed f ((2 * p * 10 ^ N.of_nat f + q) / (2 * q))
  end.

(** ** Values of type [any] met in a payload: the JSON scalars, and
    [undefined] for what an index outside an array yields. *)

Inductive jsval : Type :=
| Undefined
| Null
| Bool (b : bool)
| Num (x : number)
| Str (s : jsstring).

(** ToString, as a template literal applies it to a substitution. *)
Definition ToString (v : jsval) : jsstring :=
  match v with
  | Undefined => utf16 "undefined"
  | Null => utf16 "null"
  | Bool true => utf16 "true"
  | Bool false => utf16 "false"
  | Num x => Number_toString x
  | Str s => s
  end.

(** [a[i]] on an array: the element, or [undefined] past the end. *)
Definition index (a : list jsval) (i : nat) : jsval := nth i a Undefined.

(** ** Completions and errors *)

Inductive error : Type :=
| Error (message : jsstring)
| TypeError (message : jsstring)
| SyntaxError (message : jsstring)
| URIError.

Inductive completion (A : Type) : Type :=
| Normal (a : A)
| Throw (e : error).
Arguments Normal {A} a.
Arguments Throw {A} e.

(** ** URI encoding *)

Definition is_lead (c : code_unit) : bool := (0xD800 <=? c) && (c <=? 0xDBFF).
Definition is_trail (c : code_unit) : bool := (0xDC00 <=? c) && (c <=? 0xDFFF).

(** CodePointAt, along the whole string: a surrogate pair is one code
    point, a surrogate without its partner is unpaired. *)
Inductive code_point : Type :=
| Scalar (cp : N)
| Unpaired (c : code_unit).

Fixpoint code_points (s : jsstring) : list code_point :=
  match s with
  | [] => []
  | c :: r =>
      if is_lead c then
        match r with
        | d :: r' =>
            if is_trail d
            then Scalar (0x10000 + (c - 0xD800) * 0x400 + (d - 0xDC00))
                   :: code_points r'
            else Unpaired c :: code_points r
        | [] => [Unpaired c]
        end
      else if is_trail c then Unpaired c :: code_points r
      else Scalar c :: code_points r
  end.

Definition utf8_bytes (cp : N) : list N :=
  if cp <? 0x80 then [cp]
  else if cp <? 0x800 then [0xC0 + cp / 0x40; 0x80 + cp mod 0x40]
  else if cp <? 0x10000 then
    [0xE0 + cp / 0x1000; 0x80 + (cp / 0x40) mod 0x40; 0x80 + cp mod 0x40]
  else
    [0xF0 + cp / 0x40000; 0x80 + (cp / 0x1000) mod 0x40;
     0x80 + (cp / 0x40) mod 0x40; 0x80 + cp mod 0x40].

Definition hex_digit (n : N) : code_unit := if n <? 10 then 48 + n else 55 + n.

Definition percent (byte : N) : jsstring :=
  [37; hex_digit (byte / 16); hex_digit (byte mod 16)].

Definition percent_encode (cp : N) : jsstring := flat_map percent (utf8_bytes cp).

Definition is_alphanumeric (c : N) : bool :=
  ((48 <=? c) && (c <=? 57)) || ((65 <=? c) && (c <=? 90))
  || ((97 <=? c) && (c <=? 122)).

(** The characters [encodeURIComponent] leaves as they are: letters,
    digits and - _ . ! ~ * ' ( ) *)
Definition uri_unescaped (c : N) : bool :=
  is_alphanumeric c
  || existsb (N.eqb c) [45; 95; 46; 33; 126; 42; 39; 40; 41].

Fixpoint encode (cps : list code_point) : completion jsstring :=
  match cps with
  | [] => Normal []
  | Unpaired _ :: _ => Throw URIError
  | Scalar cp :: r =>
      match encode r with
      | Normal t =>
          Normal ((if uri_unescaped cp then [cp] else percent_encode cp) ++ t)
      | Throw e => Throw e
      end
  end.

(** [encodeURIComponent(s)]: a URIError on an unpaired surrogate. *)
Definition encodeURIComponent (s : jsstring) : completion jsstring :=
  encode (code_points s).

(** The application/x-www-form-urlencoded serializer behind
    [URLSearchParams.prototype.toString]: letters, digits and * - . _
    stay, a space becomes +, the rest is percent-encoded; an unpaired
    surrogate was replaced by U+FFFD when the pair was stored. *)
Definition form_unescaped (c : N) : bool :=
  is_alphanumeric c || existsb (N.eqb c) [42; 45; 46; 95].

Definition form_encode_point (p : code_point) : jsstring :=
  match p with
  | Unpaired _ => percent_encode 0xFFFD
  | Scalar cp =>
      if cp =? 32 then [43]
      else if form_unescaped cp then [cp]
      else percent_encode cp
  end.

Definition form_encode (s : jsstring) : jsstring :=
  flat_map form_encode_point (code_points s).

Definition URLSearchParams_toString (init : list (jsstring * jsstring)) : jsstring :=
  join (utf16 "&")
       (map (fun kv => form_encode (fst kv) ++ utf16 "=" ++ form_encode (snd kv)) init).

End JS.

Module Weather.
Import JS.

(** ** Constants (lines 5-24) *)

Definition GEOCODING_BASE : jsstring :=
  utf16 "https://geocoding-api.open-meteo.com/v1/search".
Definition FORECAST_BASE : jsstring :=
  utf16 "https://api.open-meteo.com/v1/forecast".

Definition DEFAULT_LATITUDE : number := literal 504501 4.
Definition DEFAULT_LONGITUDE : number := literal 305234 4.
Definition DEFAULT_TIMEZONE : jsstring := utf16 "Europe/Kyiv".
Definition DEFAULT_LANGUAGE : jsstring := utf16 "uk".

Record translations : Type := {
  forecastFor : jsstring;
  temperature : jsstring;
  wind : jsstring;
  noData : jsstring;
  failed : jsstring;
  current : jsstring;
  noAlerts : jsstring
}.

Definition T : translations := {|
  forecastFor := utf16 "Прогноз для";
  temperature := utf16 "Температура";
  wind := utf16 "Вітер";
  noData := utf16 "Дані недоступні";
  failed := utf16 "Не вдалося отримати дані";
  current := utf16 "Поточні умови";
  noAlerts := utf16 "Поточні попередження відсутні або не доступні через конфігурацію сервера"
|}.

(** ** Data (the interfaces of lines 49-75 and the handler's arguments) *)

Record geocoding_entry : Type := {
  entry_latitude : number;
  entry_longitude : number;
  entry_name : jsstring;
  entry_country : jsstring
}.

Record GeocodingResult : Type := {
  results : option (list geocoding_entry)
}.

(** What [geocodeCity] returns when it finds a place. *)
Record place : Type := {
  place_latitude : number;
  place_longitude : number;
  place_name : option jsstring
}.

Record current_weather_record : Type := {
  cw_temperature : number;
  cw_windspeed : number;
  cw_winddirection : number;
  cw_weathercode : number;
  cw_time : jsstring
}.

(** The daily record: the four series the formatter reads, each present
    or not, their entries of type [any]. *)
Record daily_record : Type := {
  time : option (list jsval);
  temperature_2m_max : option (list jsval);
  temperature_2m_min : option (list jsval);
  precipitation_sum : option (list jsval)
}.

Record OpenMeteoForecast : Type := {
  latitude : number;
  longitude : number;
  generationtime_ms : option number;
  utc_offset_seconds : option number;
  timezone : option jsstring;
  current_weather : option current_weather_record;
  daily : option daily_record
}.

Record arguments : Type := {
  arg_city : option jsstring;
  arg_latitude : option number;
  arg_longitude : option number
}.

Record content_item : Type := {
  type : jsstring;
  text : jsstring
}.

Record tool_result : Type := {
  content : list content_item
}.

(** [{ content: [{ type: "text", text }] }] *)
Definition text_result (s : jsstring) : tool_result :=
  {| content := [ {| type := utf16 "text"; text := s |} ] |}.

(** ** The network, the log and the monad of the asynchronous code *)

(** The type argument of [makeRequest<T>]. *)
Inductive schema : Type :=
| AsGeocodingResult
| AsOpenMeteoForecast.

Definition body (R : schema) : Type :=
  match R with
  | AsGeocodingResult => GeocodingResult
  | AsOpenMeteoForecast => OpenMeteoForecast
  end.

(** What [fetch] resolves to: the flag [ok], the status, and what
    [res.json()] will do. *)
Record Response (A : Type) : Type := {
  ok : bool;
  status : N;
  statusText : jsstring;
  json : completion A
}.
Arguments ok {A} r.
Arguments status {A} r.
Arguments statusText {A} r.
Arguments json {A} r.

(** The outside world: for a URL, [fetch] rejects or resolves. *)
Definition network : Type :=
  forall R : schema, jsstring -> completion (Response (body R)).

Inductive event : Type :=
| Fetched (R : schema) (url : jsstring)
| ConsoleError (label : jsstring) (err : error).

Definition io (A : Type) : Type :=
  network -> list event -> completion A * list event.

Definition ret {A} (a : A) : io A :=
  fun _ log => (Normal a, log).

Definition bind {A B} (m : io A) (k : A -> io B) : io B :=
  fun net log =>
    match m net log with
    | (Normal a, log') => k a net log'
    | (Throw e, log') => (Throw e, log')
    end.

Definition throw {A} (e : error) : io A :=
  fun _ log => (Throw e, log).

Definition try_catch {A} (block : io A) (handler : error -> io A) : io A :=
  fun net log =>
    match block net log with
    | (Normal a, log') => (Normal a, log')
    | (Throw e, log') => handler e net log'
    end.

Definition lift {A} (c : completion A) : io A :=
  fun _ log => (c, log).

Definition fetch (R : schema) (url : jsstring) : io (Response (body R)) :=
  fun net log => (net R url, log ++ [Fetched R url]).

Definition console_error (label : jsstring) (err : error) : io unit :=
  fun _ log => (Normal tt, log ++ [ConsoleError label err]).

Notation "x <- m ;; k" := (bind m (fun x => k))
  (at level 61, m at next level, right associativity).
Notation "m ;;; k" := (bind m (fun _ => k))
  (at level 61, right associativity).

(** Running a computation from an empty log. *)
Definition run {A} (net : network) (m : io A) : completion A * list event :=
  m net [].

(** ** makeRequest (lines 36-47) *)

Definition makeRequest (R : schema) (url : jsstring) : io (option (body R)) :=
  try_catch
    (res <- fetch R url ;;
     if negb (ok res) then
       throw (Error (utf16 "HTTP " ++ decimal (status res) ++ utf16 " "
                       ++ statusText res))
     else
       v <- lift (json res) ;;
       ret (Some v))
    (fun err =>
       console_error (utf16 "Request error") err ;;;
       ret None).

(** ** geocodeCity (lines 53-59) *)

Definition geocodeCity (city : jsstring) : io (option place) :=
  name <- lift (encodeURIComponent city) ;;
  let url := GEOCODING_BASE ++ utf16 "?name=" ++ name
               ++ utf16 "&count=1&language=" ++ DEFAULT_LANGUAGE in
  data <- makeRequest AsGeocodingResult url ;;
  let first :=
    match data with
    | Some d => match results d with
                | Some (e :: _) => Some e
                | _ => None
                end
    | None => None
    end in
  match first with
  | None => ret None
  | Some e =>
      ret (Some {| place_latitude := entry_latitude e;
                   place_longitude := entry_longitude e;
                   place_name := Some (entry_name e) |})
  end.

(** ** formatForecastText (lines 77-106) *)

(** [lines.push(x)] *)
Definition push (lines : list jsstring) (x : jsstring) : list jsstring :=
  lines ++ [x].

(** [a || []] for a series that may be missing. *)
Definition or_empty (a : option (list jsval)) : list jsval :=
  match a with
  | Some l => l
  | None => []
  end.

(** The location of the header (line 78). *)
Definition location (lat lon : number) (placeName : option jsstring) : jsstring :=
  let coordinates := toFixed 4 lat ++ utf16 ", " ++ toFixed 4 lon in
  match placeName with
  | Some p =>
      if truthy_string p then p ++ utf16 " (" ++ coordinates ++ utf16 ")"
      else coordinates
  | None => coordinates
  end.

(** The text pushed for day [i] (line 100). *)
Definition daily_line (dates maxTemps minTemps precip : list jsval) (i : nat)
  : jsstring :=
  ToString (index dates i) ++ utf16 " — " ++ temperature T ++ utf16 ": "
    ++ ToString (index minTemps i) ++ utf16 "…" ++ ToString (index maxTemps i)
    ++ utf16 " °C, опади: " ++ ToString (index precip i) ++ utf16 " мм".

(** The array [lines] when the function reaches its [return]. *)
Definition formatForecastLines (lat lon : number) (data : OpenMeteoForecast)
    (placeName : option jsstring) : list jsstring :=
  let loc := location lat lon placeName in
  let lines := [] in
  let lines := push lines (forecastFor T ++ utf16 " " ++ loc) in
  let lines :=
    match current_weather data with
    | Some cur =>
        let lines := push lines (LF :: current T ++ utf16 ":") in
        let lines := push lines (temperature T ++ utf16 ": "
                                   ++ Number_toString (cw_temperature cur)
                                   ++ utf16 " °C") in
        let lines := push lines (wind T ++ utf16 ": "
                                   ++ Number_toString (cw_windspeed cur)
                                   ++ utf16 " km/h ("
                                   ++ Number_toString (cw_winddirection cur)
                                   ++ utf16 "°)") in
        push lines (utf16 "Час: " ++ cw_time cur)
    | None => push lines (noData T)
    end in
  match daily data with
  | Some d =>
      let dates := or_empty (time d) in
      let maxTemps := or_empty (temperature_2m_max d) in
      let minTemps := or_empty (temperature_2m_min d) in
      let precip := or_empty (precipitation_sum d) in
      if (0 <? length dates)%nat then
        let lines := push lines (LF :: utf16 "Денний прогноз:") in
        fold_left
          (fun lines i => push lines (daily_line dates maxTemps minTemps precip i))
          (seq 0 (Nat.min (length dates) 7))
          lines
      else lines
  | None => lines
  end.

Definition formatForecastText (lat lon : number) (data : OpenMeteoForecast)
    (placeName : option jsstring) : jsstring :=
  join [LF] (formatForecastLines lat lon data placeName).

(** ** The get_forecast handler (lines 117-158) *)

(** ToBoolean on a number that may be [undefined]. *)
Definition truthy_coordinate (x : option number) : bool :=
  match x with
  | Some v => truthy_number v
  | None => false
  end.

(** [String(x)] on a number that may be [undefined]. *)
Definition String_ (x : option number) : jsstring :=
  match x with
  | Some v => ToString (Num v)
  | None => ToString Undefined
  end.

(** The variables [lat], [lon] and [placeName] after line 137. *)
Definition resolved : Type := (option number * option number * option jsstring)%type.

(** Lines 118-137: either the result of the early [return], or the
    values of [lat], [lon] and [placeName]. *)
Definition resolve (args : arguments) : io (tool_result + resolved) :=
  let city := arg_city args in
  let lat := arg_latitude args in
  let lon := arg_longitude args in
  if negb (truthy_coordinate lat) || negb (truthy_coordinate lon) then
    match city with
    | Some (c :: cs) =>
        geo <- geocodeCity (c :: cs) ;;
        match geo with
        | None =>
            ret (inl (text_result (failed T ++ utf16 ": не знайдено місто '"
                                     ++ (c :: cs) ++ utf16 "'")))
        | Some g =>
            ret (inr (Some (place_latitude g), Some (place_longitude g),
                      place_name g))
        end
    | _ =>
        ret (inr (Some DEFAULT_LATITUDE, Some DEFAULT_LONGITUDE,
                  Some (utf16 "Kyiv")))
    end
  else ret (inr (lat, lon, None)).

(** Line 150: the URL of the forecast request. *)
Definition forecast_url (lat lon : option number) : jsstring :=
  let params := URLSearchParams_toString
    [ (utf16 "latitude", String_ lat);
      (utf16 "longitude", String_ lon);
      (utf16 "current_weather", utf16 "true");
      (utf16 "daily",
       utf16 "temperature_2m_max,temperature_2m_min,precipitation_sum");
      (utf16 "timezone", DEFAULT_TIMEZONE);
      (utf16 "temperature_unit", utf16 "celsius");
      (utf16 "windspeed_unit", utf16 "kmh") ] in
  FORECAST_BASE ++ utf16 "?" ++ params.

(** Lines 139-157: the request and the answer, from the resolved
    variables.  [lat!.toFixed] on [undefined] is a TypeError. *)
Definition forecast (r : resolved) : io tool_result :=
  let '(lat, lon, placeName) := r in
  let url := forecast_url lat lon in
  data <- makeRequest AsOpenMeteoForecast url ;;
  match data with
  | None =>
      ret (text_result (failed T ++ utf16 ": помилка при отриманні даних"))
  | Some d =>
      match lat, lon with
      | Some la, Some lo =>
          ret (text_result (formatForecastText la lo d placeName))
      | _, _ =>
          throw (TypeError
                   (utf16 "Cannot read properties of undefined (reading 'toFixed')"))
      end
  end.

Definition handler (args : arguments) : io tool_result :=
  r <- resolve args ;;
  match r with
  | inl early => ret early
  | inr vars => forecast vars
  end.

End Weather.

(** * Readings of the specification

    Definitions that follow the words of the specification, against which
    the code above is compared. *)

Module Spec.
Import JS Weather.





(** A string that [String.prototype.isWellFormed] accepts: no unpaired
    surrogate. *)
Definition well_formed (s : jsstring) : bool :=
  forallb (fun p => match p with Scalar _ => true | Unpaired _ => false end)
          (code_points s).

(** The three ways of resolving the coordinates (section 4.4). *)
Inductive branch : Type :=
| Explicit (lat lon : number)
| Geocode (city : jsstring)
| Default.

(** "If a city name is provided: geocode it; otherwise the default."  A
    city is provided when it is a non-empty string, as the geocoder's
    contract has it ("given a non-empty place name"). *)
Definition fallback (city : option jsstring) : branch :=
  match city with
  | Some c => if truthy_string c then Geocode c else Default
  | None => Default
  end.

(** "Explicit latitude AND longitude both provided and truthy: use as-is;
    otherwise, if a city name is provided: geocode it; otherwise: the
    default." *)
Definition chosen_branch (city : option jsstring) (lat lon : option number)
  : branch :=
  match lat, lon with
  | Some la, Some lo =>
      if truthy_number la && truthy_number lo then Explicit la lo
      else fallback city
  | _, _ => fallback city
  end.

(** The header line, with the location written out. *)
Definition header (lat lon : number) (placeName : option jsstring) : jsstring :=
  match placeName with
  | Some (c :: cs) =>
      forecastFor T ++ utf16 " " ++ (c :: cs) ++ utf16 " ("
        ++ toFixed 4 lat ++ utf16 ", " ++ toFixed 4 lon ++ utf16 ")"
  | _ =>
      forecastFor T ++ utf16 " " ++ toFixed 4 lat ++ utf16 ", " ++ toFixed 4 lon
  end.

(** "If current-conditions present: a sub-header, then temperature, wind
    speed and direction, and a timestamp line; if absent: a single no-data
    line."  The sub-header carries the line feed of its blank line. *)
Definition current_section (cur : option current_weather_record)
  : list jsstring :=
  match cur with
  | Some c =>
      [ LF :: current T ++ utf16 ":";
        temperature T ++ utf16 ": " ++ Number_toString (cw_temperature c)
          ++ utf16 " °C";
        wind T ++ utf16 ": " ++ Number_toString (cw_windspeed c)
          ++ utf16 " km/h (" ++ Number_toString (cw_winddirection c)
          ++ utf16 "°)";
        utf16 "Час: " ++ cw_time c ]
  | None => [ noData T ]
  end.

(** The lines of the days: one for each of the first seven dates. *)
Definition day_lines (d : daily_record) : list jsstring :=
  map (daily_line (or_empty (time d)) (or_empty (temperature_2m_max d))
                  (or_empty (temperature_2m_min d))
                  (or_empty (precipitation_sum d)))
      (seq 0 (Nat.min (length (or_empty (time d))) 7)).

(** "If daily-series present and non-empty: a sub-header followed by one
    line per day, bounded to the first 7 entries." *)
Definition daily_section (d : option daily_record) : list jsstring :=
  match d with
  | Some r =>
      match or_empty (time r) with
      | [] => []
      | _ :: _ => (LF :: utf16 "Денний прогноз:") :: day_lines r
      end
  | None => []
  end.



(** A payload with this current record and this daily record. *)
Definition payload (cur : option current_weather_record)
    (d : option daily_record) : OpenMeteoForecast :=
  {| latitude := S754_zero false; longitude := S754_zero false;
     generationtime_ms := None; utc_offset_seconds := None; timezone := None;
     current_weather := cur; daily := d |}.

(** What a request delivers to [makeRequest]: the parsed body, or the
    error that is caught. *)
Definition delivered {A} (r : completion (Response A)) : error + A :=
  match r with
  | Throw e => inl e
  | Normal res =>
      if ok res then
        match json res with
        | Normal v => inr v
        | Throw e => inl e
        end
      else inl (Error (utf16 "HTTP " ++ decimal (status res) ++ utf16 " "
                         ++ statusText res))
  end.

(** "Extract the first result's latitude, longitude and display name;
    null if no result." *)
Definition first_place (d : GeocodingResult) : option place :=
  match results d with
  | Some (e :: _) =>
      Some {| place_latitude := entry_latitude e;
              place_longitude := entry_longitude e;
              place_name := Some (entry_name e) |}
  | _ => None
  end.

(** The geocoding query for an encoded name: one result, in the
    configured language. *)
Definition geocoding_url (name : jsstring) : jsstring :=
  GEOCODING_BASE ++ utf16 "?name=" ++ name ++ utf16 "&count=1&language="
    ++ DEFAULT_LANGUAGE.

(** The city name the handler hands to the geocoder, if it does. *)
Definition consulted_city (args : arguments) : option jsstring :=
  match chosen_branch (arg_city args) (arg_latitude args) (arg_longitude args) with
  | Geocode c => Some c
  | _ => None
  end.

End Spec.

(** * Concrete inputs *)

Module Examples.
Import JS Weather Spec.

Definition noon : current_weather_record :=
  {| cw_temperature := literal 215 1;
     cw_windspeed := literal 10 0;
     cw_winddirection := literal 270 0;
     cw_weathercode := literal 3 0;
     cw_time := utf16 "2024-05-01T12:00" |}.


Definition dates_from (first : Z) (n : nat) : list jsval :=
  map (fun i => Str (utf16 "2024-05-" ++ decimal (Z.to_N first + N.of_nat i)))
      (seq 0 n).

Definition degrees (l : list Z) : list jsval :=
  map (fun t => Num (literal t 0)) l.

Definition days (n : nat) : daily_record :=
  {| time := Some (dates_from 10 n);
     temperature_2m_max := Some (degrees (firstn n [21; 22; 23; 24; 25; 26; 27; 28; 29]%Z));
     temperature_2m_min := Some (degrees (firstn n [11; 12; 13; 14; 15; 16; 17; 18; 19]%Z));
     precipitation_sum := Some (degrees (firstn n [0; 1; 0; 2; 0; 3; 0; 4; 0]%Z)) |}.


Definition answer {A} (v : A) : completion (Response A) :=
  Normal {| ok := true; status := 200; statusText := utf16 "OK"; json := Normal v |}.

(** A network that answers every request with these bodies. *)
Definition answering (g : GeocodingResult) (f : OpenMeteoForecast) : network :=
  fun R =>
    match R return jsstring -> completion (Response (body R)) with
    | AsGeocodingResult => fun _ => answer g
    | AsOpenMeteoForecast => fun _ => answer f
    end.


(** A geocoder that knows no place and a forecast service that answers. *)
Definition nowhere : network :=
  answering {| results := Some [] |} (payload (Some noon) (Some (days 7))).



Definition for_city (name : jsstring) : arguments :=
  {| arg_city := Some name; arg_latitude := None; arg_longitude := None |}.

End Examples.

(** * The parameter schema of the tool (lines 112-116) *)

Module Schema.
Import JS Weather.

(** The value of a Number on the extended real line; NaN has none. *)
Inductive extended : Type :=
| MinusInfinity
| Finite (num : Z) (den : N)
| PlusInfinity.

Definition value (x : number) : option extended :=
  match x with
  | S754_nan => None
  | S754_infinity true => Some MinusInfinity
  | S754_infinity false => Some PlusInfinity
  | S754_zero _ => Some (Finite 0 1)
  | S754_finite s m e =>
      let '(p, q) := magnitude m e in
      Some (Finite (if s then (- Z.of_N p)%Z else Z.of_N p) q)
  end.

Definition extended_le (a b : extended) : bool :=
  match a, b with
  | MinusInfinity, _ => true
  | _, PlusInfinity => true
  | Finite n1 d1, Finite n2 d2 => (n1 * Z.of_N d2 <=? n2 * Z.of_N d1)%Z
  | _, _ => false
  end.

(** [x <= y] on Numbers: false as soon as one of them is NaN. *)
Definition number_le (x y : number) : bool :=
  match value x, value y with
  | Some a, Some b => extended_le a b
  | _, _ => false
  end.

(** [z.number().min(lo).max(hi).optional()]: absent, or a number with
    lo <= x and x <= hi (which no NaN satisfies). *)
Definition optional_number_between (lo hi : number) (x : option number) : bool :=
  match x with
  | None => true
  | Some v => number_le lo v && number_le v hi
  end.

(** The three parameters: any string for the city, a latitude in
    [-90, 90], a longitude in [-180, 180], each optional. *)
Definition accepts (args : arguments) : bool :=
  optional_number_between (literal (-90) 0) (literal 90 0) (arg_latitude args)
  && optional_number_between (literal (-180) 0) (literal 180 0)
       (arg_longitude args).

(** +0 and -0. *)
Definition is_zero (x : number) : bool :=
  match x with
  | S754_zero _ => true
  | _ => false
  end.

End Schema.

(** * Notions for the observations on requests, logs and texts *)

Module Observe.
Import JS Weather Spec.

(** The requests of a log, in order. *)
Definition requests (log : list event) : list (schema * jsstring) :=
  flat_map (fun ev => match ev with
                      | Fetched R url => [(R, url)]
                      | ConsoleError _ _ => []
                      end) log.

(** The errors a log reports, in order. *)
Definition reported (log : list event) : list error :=
  flat_map (fun ev => match ev with
                      | Fetched _ _ => []
                      | ConsoleError _ e => [e]
                      end) log.

(** A sequence of 16-bit code units. *)
Definition is_string (s : jsstring) : bool :=
  forallb (fun c => c <? 0x10000)%N s.

(** A code point within the range of Unicode. *)
Definition scalar_value (p : code_point) : Prop :=
  match p with
  | Scalar cp => (cp < 0x110000)%N
  | Unpaired _ => True
  end.

(** What an encoded URI component is made of: the characters left as they
    are, and the percent sign of an escape (whose two hexadecimal digits
    are among the former). *)
Definition uri_safe (c : code_unit) : bool :=
  uri_unescaped c || (c =? 37)%N.

Definition occurrences (c : code_unit) (s : jsstring) : nat :=
  count_occ N.eq_dec s c.

(** What the formatter reads of a payload: four fields of the current
    record, the first seven dates, and of the three other series as many
    entries as there are dates, seven at most. *)
Definition visible_current (c : current_weather_record)
  : number * number * number * jsstring :=
  (cw_temperature c, cw_windspeed c, cw_winddirection c, cw_time c).

Definition visible_daily (d : daily_record)
  : list jsval * list jsval * list jsval * list jsval :=
  let k := Nat.min (length (or_empty (time d))) 7 in
  (firstn 7 (or_empty (time d)),
   firstn k (or_empty (temperature_2m_max d)),
   firstn k (or_empty (temperature_2m_min d)),
   firstn k (or_empty (precipitation_sum d))).

Definition visible (data : OpenMeteoForecast) :=
  (option_map visible_current (current_weather data),
   option_map visible_daily (daily data)).

(** The two failure texts and the start of a forecast text. *)
Definition request_failed : jsstring :=
  failed T ++ utf16 ": помилка при отриманні даних".

Definition city_not_found (city : jsstring) : jsstring :=
  failed T ++ utf16 ": не знайдено місто '" ++ city ++ utf16 "'".

(** What the log holds before the forecast request: nothing, or the
    geocoding request for the consulted city. *)
Definition before_forecast (args : arguments) (pre : list event) : Prop :=
  pre = []
  \/ exists city name,
       consulted_city args = Some city
       /\ encodeURIComponent city = Normal name
       /\ pre = [Fetched AsGeocodingResult (geocoding_url name)].

(** The shapes a run of the handler can have. *)
Inductive run_shape (args : arguments)
  : completion tool_result * list event -> Prop :=
| Thrown (city : jsstring) :
    consulted_city args = Some city ->
    well_formed city = false ->
    run_shape args (Throw URIError, [])
| NotFound (city name : jsstring) (errs : list event) :
    consulted_city args = Some city ->
    encodeURIComponent city = Normal name ->
    errs = [] \/ (exists e, errs = [ConsoleError (utf16 "Request error") e]) ->
    run_shape args
      (Normal (text_result (city_not_found city)),
       Fetched AsGeocodingResult (geocoding_url name) :: errs)
| Failed (pre : list event) (lat lon : number) (e : error) :
    before_forecast args pre ->
    run_shape args
      (Normal (text_result request_failed),
       pre ++ [ Fetched AsOpenMeteoForecast (forecast_url (Some lat) (Some lon));
                ConsoleError (utf16 "Request error") e ])
| Forecast (pre : list event) (lat lon : number) (data : OpenMeteoForecast)
    (placeName : option jsstring) :
    before_forecast args pre ->
    run_shape args
      (Normal (text_result (formatForecastText lat lon data placeName)),
       pre ++ [ Fetched AsOpenMeteoForecast (forecast_url (Some lat) (Some lon)) ]).

(** Inputs for the witnesses. *)
Definition kharkiv : geocoding_entry :=
  {| entry_latitude := literal 499808 4;
     entry_longitude := literal 362527 4;
     entry_name := utf16 "Харків";
     entry_country := utf16 "Україна" |}.

Definition odesa : geocoding_entry :=
  {| entry_latitude := literal 464775 4;
     entry_longitude := literal 307326 4;
     entry_name := utf16 "Одеса";
     entry_country := utf16 "Україна" |}.

Definition status_of (code : N) (text : jsstring) {A} (v : completion A)
  : completion (Response A) :=
  Normal {| ok := false; status := code; statusText := text; json := v |}.

(** A forecast service that is down behind a geocoder that answers. *)
Definition half_down : network :=
  fun R =>
    match R return jsstring -> completion (Response (body R)) with
    | AsGeocodingResult => fun _ =>
        Normal {| ok := true; status := 200; statusText := utf16 "OK";
                  json := Normal {| results := Some [kharkiv; odesa] |} |}
    | AsOpenMeteoForecast => fun _ =>
        status_of 503 (utf16 "Service Unavailable")
                  (Throw (SyntaxError (utf16 "Unexpected token")))
    end.

Definition dates_only (n : nat) : daily_record :=
  {| time := Some (Examples.dates_from 10 n);
     temperature_2m_max := None;
     temperature_2m_min := None;
     precipitation_sum := None |}.

End Observe.

(** * Properties *)

Import JS Weather Spec Examples Schema Observe.

(** ** The runtime on known values *)

Lemma Number_toString_samples :
  Number_toString (literal 1 1) = utf16 "0.1"
  /\ Number_toString (literal (-15) 1) = utf16 "-1.5"
  /\ Number_toString (literal 1 7) = utf16 "1e-7"
  /\ Number_toString (literal 1000000000000000000000 0) = utf16 "1e+21"
  /\ Number_toString (literal 123456789012345680000 0)
     = utf16 "123456789012345680000"
  /\ Number_toString (SFadd 53 1024 (literal 1 1) (literal 2 1))
     = utf16 "0.30000000000000004"
  /\ Number_toString (S754_finite false 1 (-1074)) = utf16 "5e-324"
  /\ Number_toString (S754_zero true) = utf16 "0".
Proof. vm_compute. repeat split. Qed.

Lemma toFixed_samples :
  toFixed 4 (literal 504501 4) = utf16 "50.4501"
  /\ toFixed 4 (literal 25 1) = utf16 "2.5000"
  /\ toFixed 4 (literal (-1) 5) = utf16 "-0.0000"
  /\ toFixed 2 (literal 1005 3) = utf16 "1.00"
  /\ toFixed 0 (literal 25 1) = utf16 "3"
  /\ toFixed 4 (S754_zero true) = utf16 "0.0000"
  /\ toFixed 4 S754_nan = utf16 "NaN".
Proof. vm_compute. repeat split. Qed.

Lemma encoding_samples :
  encodeURIComponent (utf16 "Київ a/b")
  = Normal (utf16 "%D0%9A%D0%B8%D1%97%D0%B2%20a%2Fb")
  /\ encodeURIComponent [0xD83D; 0xDE00]%N = Normal (utf16 "%F0%9F%98%80")
  /\ encodeURIComponent [0xDE00; 0xD83D]%N = Throw URIError
  /\ form_encode (utf16 "Europe/Kyiv a,b") = utf16 "Europe%2FKyiv+a%2Cb".
Proof. vm_compute. repeat split. Qed.

(** ** Lists of lines *)











(** ** The renderings of a Number hold no line feed *)









(** ** The formatter builds the header, the current section and the daily
    section, in this order *)

Lemma fold_push (f : nat -> jsstring) (l : list nat) (init : list jsstring) :
  fold_left (fun lines i => push lines (f i)) l init = init ++ map f l.
Proof.
  revert init. induction l as [|i l IH]; intro init; simpl.
  - symmetry. apply app_nil_r.
  - rewrite IH. unfold push. rewrite <- app_assoc. reflexivity.
Qed.

Lemma location_header (lat lon : number) (placeName : option jsstring) :
  forecastFor T ++ utf16 " " ++ location lat lon placeName
  = header lat lon placeName.
Proof.
  unfold location, header.
  destruct placeName as [[|c cs]|]; cbv beta iota delta [truthy_string];
    rewrite <- ?app_assoc; reflexivity.
Qed.

Lemma formatForecastLines_sections (lat lon : number)
    (data : OpenMeteoForecast) (placeName : option jsstring) :
  formatForecastLines lat lon data placeName
  = header lat lon placeName
      :: current_section (current_weather data) ++ daily_section (daily data).
Proof.
  unfold formatForecastLines. rewrite location_header.
  unfold daily_section, day_lines, current_section.
  destruct (daily data) as [d|].
  - destruct (or_empty (time d)) as [|x dates] eqn:E.
    + destruct (current_weather data); unfold push; cbn [app];
        rewrite ?app_nil_r; reflexivity.
    + change (0 <? length (x :: dates))%nat with true. cbv iota.
      rewrite fold_push.
      destruct (current_weather data); unfold push; cbn [app]; reflexivity.
  - destruct (current_weather data); unfold push; cbn [app];
      rewrite ?app_nil_r; reflexivity.
Qed.

Lemma formatForecastText_sections (lat lon : number)
    (data : OpenMeteoForecast) (placeName : option jsstring) :
  formatForecastText lat lon data placeName
  = join [LF] (header lat lon placeName
                 :: current_section (current_weather data)
                 ++ daily_section (daily data)).
Proof.
  unfold formatForecastText. rewrite formatForecastLines_sections. reflexivity.
Qed.

Lemma length_day_lines (d : daily_record) :
  length (day_lines d) = Nat.min (length (or_empty (time d))) 7.
Proof.
  unfold day_lines. rewrite length_map, length_seq. reflexivity.
Qed.

(** ** Lines that stay single lines *)






(** The text starts with the header and a line feed: a second line is
    always pushed. *)
Lemma text_starts_with_header (lat lon : number) (data : OpenMeteoForecast)
    (placeName : option jsstring) :
  exists rest,
    formatForecastText lat lon data placeName
    = header lat lon placeName ++ LF :: rest.
Proof.
  rewrite formatForecastText_sections.
  destruct (current_section (current_weather data)
              ++ daily_section (daily data)) as [|y r] eqn:E.
  - destruct (current_weather data); discriminate E.
  - exists (join [LF] (y :: r)). reflexivity.
Qed.

(** ** The formatter *)















(** ** The requests *)

(** [makeRequest] never throws: it delivers the body, or logs the error
    it caught and delivers null. *)
Lemma makeRequest_delivers (R : schema) (url : jsstring) (net : network)
    (log : list event) :
  makeRequest R url net log
  = match delivered (net R url) with
    | inr v => (Normal (Some v), log ++ [Fetched R url])
    | inl e =>
        (Normal None,
         log ++ [Fetched R url; ConsoleError (utf16 "Request error") e])
    end.
Proof.
  unfold makeRequest, try_catch, bind, fetch, throw, lift, ret, console_error,
    delivered.
  destruct (net R url) as [res|e].
  - destruct (ok res); cbn [negb].
    + destruct (json res) as [v|e]; [reflexivity|].
      rewrite <- app_assoc. reflexivity.
    + rewrite <- app_assoc. reflexivity.
  - rewrite <- app_assoc. reflexivity.
Qed.

Lemma geocodeCity_cases (city : jsstring) (net : network) (log : list event) :
  geocodeCity city net log
  = match encodeURIComponent city with
    | Throw e => (Throw e, log)
    | Normal name =>
        match delivered (net AsGeocodingResult (geocoding_url name)) with
        | inr d =>
            (Normal (first_place d),
             log ++ [Fetched AsGeocodingResult (geocoding_url name)])
        | inl e =>
            (Normal None,
             log ++ [Fetched AsGeocodingResult (geocoding_url name);
                     ConsoleError (utf16 "Request error") e])
        end
    end.
Proof.
  unfold geocodeCity, geocoding_url.
  unfold bind at 1. unfold lift.
  destruct (encodeURIComponent city) as [name|e]; [|reflexivity].
  unfold bind. rewrite makeRequest_delivers.
  set (url := GEOCODING_BASE ++ utf16 "?name=" ++ name
                ++ utf16 "&count=1&language=" ++ DEFAULT_LANGUAGE).
  destruct (delivered (net AsGeocodingResult url)) as [e|d].
  - reflexivity.
  - unfold first_place, ret.
    destruct (results d) as [[|e l]|]; reflexivity.
Qed.

(** ** The handler *)

(** The handler follows the branch the specification chooses. *)
Lemma handler_by_branch (args : arguments) (net : network) (log : list event) :
  handler args net log
  = match chosen_branch (arg_city args) (arg_latitude args)
                        (arg_longitude args) with
    | Explicit la lo => forecast (Some la, Some lo, None) net log
    | Geocode c =>
        (geo <- geocodeCity c ;;
         match geo with
         | None =>
             ret (text_result (failed T ++ utf16 ": не знайдено місто '"
                                 ++ c ++ utf16 "'"))
         | Some g =>
             forecast (Some (place_latitude g), Some (place_longitude g),
                       place_name g)
         end) net log
    | Default =>
        forecast (Some DEFAULT_LATITUDE, Some DEFAULT_LONGITUDE,
                  Some (utf16 "Kyiv")) net log
    end.
Proof.
  destruct args as [city lat lon].
  unfold handler, resolve, chosen_branch, fallback, truthy_coordinate.
  cbv beta iota delta [arg_city arg_latitude arg_longitude].
  assert (Hfall :
    (r <- match city with
          | Some (c :: cs) =>
              geo <- geocodeCity (c :: cs) ;;
              match geo with
              | None =>
                  ret (inl (text_result
                              (failed T ++ utf16 ": не знайдено місто '"
                                 ++ (c :: cs) ++ utf16 "'")))
              | Some g =>
                  ret (inr (Some (place_latitude g), Some (place_longitude g),
                            place_name g))
              end
          | _ =>
              ret (inr (Some DEFAULT_LATITUDE, Some DEFAULT_LONGITUDE,
                        Some (utf16 "Kyiv")))
          end ;;
     match r with
     | inl early => ret early
     | inr vars => forecast vars
     end) net log
    = match match city with
            | Some c => if truthy_string c then Geocode c else Default
            | None => Default
            end with
      | Explicit la lo => forecast (Some la, Some lo, None) net log
      | Geocode c =>
          (geo <- geocodeCity c ;;
           match geo with
           | None =>
               ret (text_result (failed T ++ utf16 ": не знайдено місто '"
                                   ++ c ++ utf16 "'"))
           | Some g =>
               forecast (Some (place_latitude g), Some (place_longitude g),
                         place_name g)
           end) net log
      | Default =>
          forecast (Some DEFAULT_LATITUDE, Some DEFAULT_LONGITUDE,
                    Some (utf16 "Kyiv")) net log
      end).
  { destruct city as [[|c cs]|]; cbv beta iota delta [truthy_string].
    - reflexivity.
    - unfold bind.
      destruct (geocodeCity (c :: cs) net log) as [[[g|]|e] log'];
        reflexivity.
    - reflexivity. }
  destruct lat as [la|]; [|exact Hfall].
  destruct lon as [lo|];
    [|destruct (truthy_number la); cbv beta iota delta [negb orb];
      exact Hfall].
  destruct (truthy_number la); [|exact Hfall].
  destruct (truthy_number lo); [|exact Hfall].
  reflexivity.
Qed.

Lemma forecast_cases (la lo : number) (placeName : option jsstring)
    (net : network) (log : list event) :
  forecast (Some la, Some lo, placeName) net log
  = match delivered (net AsOpenMeteoForecast
                         (forecast_url (Some la) (Some lo))) with
    | inr data =>
        (Normal (text_result (formatForecastText la lo data placeName)),
         log ++ [Fetched AsOpenMeteoForecast (forecast_url (Some la) (Some lo))])
    | inl e =>
        (Normal (text_result (failed T ++ utf16 ": помилка при отриманні даних")),
         log ++ [Fetched AsOpenMeteoForecast (forecast_url (Some la) (Some lo));
                 ConsoleError (utf16 "Request error") e])
    end.
Proof.
  unfold forecast, bind. rewrite makeRequest_delivers.
  destruct (delivered (net AsOpenMeteoForecast
                           (forecast_url (Some la) (Some lo))));
    reflexivity.
Qed.

Lemma encode_throws_URIError (cps : list code_point) (e : error) :
  encode cps = Throw e -> e = URIError.
Proof.
  induction cps as [|[cp|c] r IH]; simpl; intro H.
  - discriminate H.
  - destruct (encode r); [discriminate H|].
    injection H as <-. apply IH. reflexivity.
  - injection H as <-. reflexivity.
Qed.

Lemma encode_well_formed (s : jsstring) :
  if well_formed s
  then exists name, encodeURIComponent s = Normal name
  else encodeURIComponent s = Throw URIError.
Proof.
  unfold well_formed, encodeURIComponent.
  induction (code_points s) as [|[cp|c] r IH].
  - exists []. reflexivity.
  - cbn [forallb encode andb]. destruct (forallb _ r).
    + destruct IH as [t ->]. eexists. reflexivity.
    + rewrite IH. reflexivity.
  - reflexivity.
Qed.

(** The geocoder requests nothing from the forecast service. *)
Lemma geocodeCity_log (city : jsstring) (net : network)
    (r : completion (option place)) (log : list event) :
  run net (geocodeCity city) = (r, log) ->
  forall url, ~ In (Fetched AsOpenMeteoForecast url) log.
Proof.
  unfold run. rewrite geocodeCity_cases. intros H url Hin.
  destruct (encodeURIComponent city) as [name|e].
  - destruct (delivered (net AsGeocodingResult (geocoding_url name)));
      injection H as _ <-; simpl in Hin;
      repeat (destruct Hin as [Hin|Hin]; [discriminate Hin|]);
      exact Hin.
  - injection H as _ <-. exact Hin.
Qed.

(** C1: when the geocoder is consulted (the coordinates are not both
    truthy and a city is given) and it returns null, the handler returns
    the city-not-found message, and the log of the invocation, which is
    the log of the geocoder, has no request to the forecast service. *)
Theorem geocoding_failure_stops
    (net : network) (args : arguments) (city : jsstring) (log : list event) :
  truthy_coordinate (arg_latitude args)
    && truthy_coordinate (arg_longitude args) = false ->
  arg_city args = Some city ->
  truthy_string city = true ->
  run net (geocodeCity city) = (Normal None, log) ->
  run net (handler args)
  = (Normal (text_result (failed T ++ utf16 ": не знайдено місто '"
                            ++ city ++ utf16 "'")), log)
  /\ (forall url, ~ In (Fetched AsOpenMeteoForecast url) log).
Proof.
  intros Hcoord Hcity Htruthy Hgeo. split.
  - unfold run in *. rewrite handler_by_branch.
    assert (E : chosen_branch (arg_city args) (arg_latitude args)
                              (arg_longitude args) = Geocode city).
    { unfold chosen_branch, fallback. rewrite Hcity, Htruthy.
      unfold truthy_coordinate in Hcoord.
      destruct (arg_latitude args) as [la|]; [|reflexivity].
      destruct (arg_longitude args) as [lo|]; [|reflexivity].
      rewrite Hcoord. reflexivity. }
    rewrite E. unfold bind. rewrite Hgeo. reflexivity.
  - exact (geocodeCity_log city net _ log Hgeo).
Qed.

Lemma geocoding_failure_stops_witness :
  run nowhere (handler (for_city (utf16 "Atlantis")))
  = (Normal (text_result (utf16 "Не вдалося отримати дані: не знайдено місто 'Atlantis'")),
     [Fetched AsGeocodingResult
        (utf16 "https://geocoding-api.open-meteo.com/v1/search?name=Atlantis&count=1&language=uk")]).
Proof.
  exact (proj1 (geocoding_failure_stops nowhere (for_city (utf16 "Atlantis"))
                  (utf16 "Atlantis") _ eq_refl eq_refl eq_refl eq_refl)).
Defined.

(** C2: the handler resolves the coordinates by the three branches in
    order: both coordinates given and truthy, they are used as given, with
    no display name; otherwise a city given (a non-empty string), it is
    geocoded; otherwise the default.  A coordinate that is +0 or -0 falls
    through to the city or the default, whatever the other one is. *)
Theorem resolution_by_three_branches
    (args : arguments) (net : network) (log : list event) :
  handler args net log
  = match chosen_branch (arg_city args) (arg_latitude args)
                        (arg_longitude args) with
    | Explicit la lo => forecast (Some la, Some lo, None) net log
    | Geocode c =>
        (geo <- geocodeCity c ;;
         match geo with
         | None =>
             ret (text_result (failed T ++ utf16 ": не знайдено місто '"
                                 ++ c ++ utf16 "'"))
         | Some g =>
             forecast (Some (place_latitude g), Some (place_longitude g),
                       place_name g)
         end) net log
    | Default =>
        forecast (Some DEFAULT_LATITUDE, Some DEFAULT_LONGITUDE,
                  Some (utf16 "Kyiv")) net log
    end
  /\ (forall (city : option jsstring) (s : bool) (other : option number),
        chosen_branch city (Some (S754_zero s)) other = fallback city
        /\ chosen_branch city other (Some (S754_zero s)) = fallback city)
  /\ (forall city : option jsstring,
        fallback city
        = match city with
          | Some (c :: cs) => Geocode (c :: cs)
          | _ => Default
          end).
Proof.
  split; [apply handler_by_branch|]. split.
  - intros city s other. unfold chosen_branch. split.
    + destruct other; reflexivity.
    + destruct other as [x|]; [|reflexivity].
      cbn [truthy_number]. rewrite andb_false_r. reflexivity.
  - intros [[|c cs]|]; reflexivity.
Qed.

(** C3: with no latitude, no longitude and no city, the request goes to
    the forecast URL with latitude=50.4501 and longitude=30.5234, and when
    it delivers a payload the text is that of the formatter for the
    default coordinates and the name "Kyiv", its first line being
    "Прогноз для Kyiv (50.4501, 30.5234)". *)
Theorem default_is_kyiv (net : network) :
  let url := utf16 "https://api.open-meteo.com/v1/forecast?latitude=50.4501&longitude=30.5234&current_weather=true&daily=temperature_2m_max%2Ctemperature_2m_min%2Cprecipitation_sum&timezone=Europe%2FKyiv&temperature_unit=celsius&windspeed_unit=kmh" in
  run net (handler {| arg_city := None; arg_latitude := None;
                      arg_longitude := None |})
  = match delivered (net AsOpenMeteoForecast url) with
    | inr data =>
        (Normal (text_result
                   (formatForecastText DEFAULT_LATITUDE DEFAULT_LONGITUDE data
                                       (Some (utf16 "Kyiv")))),
         [Fetched AsOpenMeteoForecast url])
    | inl e =>
        (Normal (text_result (failed T ++ utf16 ": помилка при отриманні даних")),
         [Fetched AsOpenMeteoForecast url;
          ConsoleError (utf16 "Request error") e])
    end
  /\ Number_toString DEFAULT_LATITUDE = utf16 "50.4501"
  /\ Number_toString DEFAULT_LONGITUDE = utf16 "30.5234"
  /\ (forall data,
        hd [] (formatForecastLines DEFAULT_LATITUDE DEFAULT_LONGITUDE data
                                   (Some (utf16 "Kyiv")))
        = utf16 "Прогноз для Kyiv (50.4501, 30.5234)").
Proof.
  intro url.
  assert (Eurl : forecast_url (Some DEFAULT_LATITUDE) (Some DEFAULT_LONGITUDE)
                 = url) by (vm_compute; reflexivity).
  split; [|split; [|split]].
  - unfold run. rewrite handler_by_branch.
    cbv beta iota delta [chosen_branch fallback arg_city arg_latitude
                         arg_longitude].
    rewrite forecast_cases, Eurl. reflexivity.
  - vm_compute. reflexivity.
  - vm_compute. reflexivity.
  - intro data. rewrite formatForecastLines_sections.
    cbn [hd]. vm_compute. reflexivity.
Qed.





(** C9: with exactly one of latitude and longitude given and no city, the
    given coordinate is dropped: the handler does what it does with no
    argument at all, requesting the forecast of the default coordinates
    (50.4501, 30.5234) under the name "Kyiv". *)
Theorem lone_coordinate_discarded (x : number) (net : network)
    (log : list event) :
  handler {| arg_city := None; arg_latitude := Some x;
             arg_longitude := None |} net log
  = forecast (Some DEFAULT_LATITUDE, Some DEFAULT_LONGITUDE,
              Some (utf16 "Kyiv")) net log
  /\ handler {| arg_city := None; arg_latitude := None;
                arg_longitude := Some x |} net log
     = forecast (Some DEFAULT_LATITUDE, Some DEFAULT_LONGITUDE,
                 Some (utf16 "Kyiv")) net log
  /\ handler {| arg_city := None; arg_latitude := None;
                arg_longitude := None |} net log
     = forecast (Some DEFAULT_LATITUDE, Some DEFAULT_LONGITUDE,
                 Some (utf16 "Kyiv")) net log
  /\ forecast_url (Some DEFAULT_LATITUDE) (Some DEFAULT_LONGITUDE)
     = utf16 "https://api.open-meteo.com/v1/forecast?latitude=50.4501&longitude=30.5234&current_weather=true&daily=temperature_2m_max%2Ctemperature_2m_min%2Cprecipitation_sum&timezone=Europe%2FKyiv&temperature_unit=celsius&windspeed_unit=kmh".
Proof.
  split; [|split; [|split]].
  - rewrite handler_by_branch. reflexivity.
  - rewrite handler_by_branch. reflexivity.
  - rewrite handler_by_branch. reflexivity.
  - vm_compute. reflexivity.
Qed.

(** * Further properties of the code *)

(** ** makeRequest (lines 36-47) *)

Lemma requests_app (a b : list event) :
  requests (a ++ b) = requests a ++ requests b.
Proof. apply flat_map_app. Qed.

Lemma reported_app (a b : list event) :
  reported (a ++ b) = reported a ++ reported b.
Proof. apply flat_map_app. Qed.



(** X3: when the response is not ok, [makeRequest] returns null and
    reports the error "HTTP <status> <statusText>", whatever the body is:
    [json()] is not consulted. *)
Theorem makeRequest_not_ok
    (R : schema) (url : jsstring) (net : network) (log : list event)
    (res : Response (body R)) :
  net R url = Normal res ->
  ok res = false ->
  makeRequest R url net log
  = (Normal None,
     log ++ [ Fetched R url;
              ConsoleError (utf16 "Request error")
                (Error (utf16 "HTTP " ++ decimal (status res) ++ utf16 " "
                          ++ statusText res)) ]).
Proof.
  intros Hnet Hok. rewrite makeRequest_delivers. unfold delivered.
  rewrite Hnet, Hok. reflexivity.
Qed.

Lemma makeRequest_not_ok_witness :
  makeRequest AsOpenMeteoForecast (utf16 "https://api.open-meteo.com/v1/forecast")
              half_down []
  = (Normal None,
     [ Fetched AsOpenMeteoForecast (utf16 "https://api.open-meteo.com/v1/forecast");
       ConsoleError (utf16 "Request error")
                    (Error (utf16 "HTTP 503 Service Unavailable")) ]).
Proof.
  exact (makeRequest_not_ok AsOpenMeteoForecast
           (utf16 "https://api.open-meteo.com/v1/forecast") half_down [] _
           eq_refl eq_refl).
Defined.


(** ** encodeURIComponent as geocodeCity uses it (line 54) *)

Lemma hex_digit_unescaped (n : N) :
  (n < 16)%N -> uri_unescaped (hex_digit n) = true.
Proof.
  intro H. unfold uri_unescaped, is_alphanumeric, hex_digit.
  apply orb_true_iff. left.
  destruct (N.ltb_spec n 10) as [Hn|Hn].
  - apply orb_true_iff. left. apply orb_true_iff. left.
    apply andb_true_iff. split; apply N.leb_le; lia.
  - apply orb_true_iff. left. apply orb_true_iff. right.
    apply andb_true_iff. split; apply N.leb_le; lia.
Qed.

Lemma percent_safe (b : N) :
  (b < 256)%N -> forallb uri_safe (percent b) = true.
Proof.
  intro H. unfold percent. cbn [forallb].
  assert (H1 : (b / 16 < 16)%N) by (apply N.Div0.div_lt_upper_bound; lia).
  assert (H2 : (b mod 16 < 16)%N) by (apply N.mod_lt; lia).
  unfold uri_safe at 2 3.
  rewrite (hex_digit_unescaped _ H1), (hex_digit_unescaped _ H2).
  reflexivity.
Qed.

Lemma utf8_bytes_small (cp : N) :
  (cp < 0x110000)%N -> Forall (fun b => (b < 256)%N) (utf8_bytes cp).
Proof.
  intro H. unfold utf8_bytes.
  assert (M : forall a, (a mod 0x40 < 0x40)%N) by (intro a; apply N.mod_lt; lia).
  destruct (N.ltb_spec cp 0x80) as [H1|H1]; [repeat constructor; lia|].
  destruct (N.ltb_spec cp 0x800) as [H2|H2].
  { assert ((cp / 0x40 < 0x20)%N) by (apply N.Div0.div_lt_upper_bound; lia).
    pose proof (M cp). repeat constructor; lia. }
  destruct (N.ltb_spec cp 0x10000) as [H3|H3].
  { assert ((cp / 0x1000 < 0x10)%N) by (apply N.Div0.div_lt_upper_bound; lia).
    pose proof (M cp). pose proof (M (cp / 0x40)%N).
    repeat constructor; lia. }
  assert ((cp / 0x40000 < 0x8)%N) by (apply N.Div0.div_lt_upper_bound; lia).
  pose proof (M cp). pose proof (M (cp / 0x40)%N). pose proof (M (cp / 0x1000)%N).
  repeat constructor; lia.
Qed.

Lemma percent_encode_safe (cp : N) :
  (cp < 0x110000)%N -> forallb uri_safe (percent_encode cp) = true.
Proof.
  intro H. unfold percent_encode.
  induction (utf8_bytes_small cp H) as [|b bs Hb _ IH]; [reflexivity|].
  cbn [flat_map]. rewrite forallb_app, (percent_safe b Hb), IH. reflexivity.
Qed.

Lemma code_points_scalar (s : jsstring) :
  is_string s = true -> Forall scalar_value (code_points s).
Proof.
  assert (G : forall n s, (length s <= n)%nat -> is_string s = true ->
                          Forall scalar_value (code_points s)).
  { clear s. induction n as [|n IH]; intros s Hlen Hs.
    - destruct s; [constructor|simpl in Hlen; lia].
    - destruct s as [|c r]; [constructor|].
      cbn [is_string forallb] in Hs. apply andb_true_iff in Hs.
      destruct Hs as [Hc Hr]. apply N.ltb_lt in Hc.
      simpl in Hlen. cbn [code_points].
      destruct (is_lead c) eqn:Lc.
      + destruct r as [|d r']; [repeat constructor|].
        cbn [forallb] in Hr. apply andb_true_iff in Hr.
        destruct Hr as [Hd Hr']. apply N.ltb_lt in Hd.
        destruct (is_trail d) eqn:Td.
        * constructor.
          -- unfold is_lead in Lc. unfold is_trail in Td.
             apply andb_true_iff in Lc. apply andb_true_iff in Td.
             destruct Lc as [L1 L2]. destruct Td as [T1 T2].
             apply N.leb_le in L1, L2, T1, T2. cbn [scalar_value]. lia.
          -- apply IH; [simpl in Hlen; lia|exact Hr'].
        * constructor; [exact I|].
          apply IH; [simpl in *; lia|].
          cbn [is_string forallb]. apply andb_true_iff. split;
            [apply N.ltb_lt; exact Hd|exact Hr'].
      + destruct (is_trail c).
        * constructor; [exact I|]. apply IH; [lia|exact Hr].
        * constructor; [cbn [scalar_value]; lia|].
          apply IH; [lia|exact Hr]. }
  intro H. exact (G (length s) s (le_n _) H).
Qed.

Lemma encode_safe (cps : list code_point) (t : jsstring) :
  Forall scalar_value cps -> encode cps = Normal t ->
  forallb uri_safe t = true.
Proof.
  intro H. revert t. induction H as [|p cps Hp _ IH]; intros t E.
  - injection E as <-. reflexivity.
  - destruct p as [cp|c]; cbn [encode] in E; [|discriminate E].
    destruct (encode cps) as [t'|e]; [|discriminate E].
    injection E as <-. rewrite forallb_app.
    apply andb_true_iff. split; [|exact (IH t' eq_refl)].
    destruct (uri_unescaped cp) eqn:U.
    + cbn [forallb]. unfold uri_safe. rewrite U. reflexivity.
    + apply percent_encode_safe. exact Hp.
Qed.

Lemma occurrences_app (c : code_unit) (a b : jsstring) :
  occurrences c (a ++ b) = (occurrences c a + occurrences c b)%nat.
Proof. apply count_occ_app. Qed.

Lemma occurrences_none (c : code_unit) (t : jsstring) :
  uri_safe c = false -> forallb uri_safe t = true -> occurrences c t = 0%nat.
Proof.
  intros Hc Ht. unfold occurrences. apply count_occ_not_In.
  intro Hin. rewrite forallb_forall in Ht.
  rewrite (Ht c Hin) in Hc. discriminate Hc.
Qed.

(** X4: for a city name made of 16-bit code units that
    [encodeURIComponent] accepts, the encoded name holds only the
    characters A-Z a-z 0-9 - _ . ! ~ * ' ( ) and the percent sign, so the
    geocoding URL has its three parameters and no more: one question mark,
    two ampersands, three equals signs, no number sign, whatever the city
    name holds. *)
Theorem encoded_name_is_safe (city name : jsstring) :
  is_string city = true ->
  encodeURIComponent city = Normal name ->
  forallb uri_safe name = true
  /\ occurrences 63%N (geocoding_url name) = 1%nat
  /\ occurrences 38%N (geocoding_url name) = 2%nat
  /\ occurrences 61%N (geocoding_url name) = 3%nat
  /\ occurrences 35%N (geocoding_url name) = 0%nat.
Proof.
  intros Hs He.
  assert (Hsafe : forallb uri_safe name = true).
  { apply (encode_safe (code_points city)); [|exact He].
    apply code_points_scalar. exact Hs. }
  split; [exact Hsafe|].
  unfold geocoding_url. rewrite !occurrences_app.
  rewrite (occurrences_none 63%N name), (occurrences_none 38%N name),
    (occurrences_none 61%N name), (occurrences_none 35%N name)
    by (reflexivity || exact Hsafe).
  repeat split; vm_compute; reflexivity.
Qed.

Lemma encoded_name_is_safe_witness :
  occurrences 38%N (geocoding_url (utf16 "a%26b%3Dc%23%20%D0%9A")) = 2%nat.
Proof.
  exact (proj1 (proj2 (proj2
           (encoded_name_is_safe (utf16 "a&b=c# К")
              (utf16 "a%26b%3Dc%23%20%D0%9A") eq_refl eq_refl)))).
Defined.

Lemma unescaped_is_ascii (c : code_unit) :
  uri_unescaped c = true -> (c < 128)%N.
Proof.
  unfold uri_unescaped, is_alphanumeric, existsb. intro H.
  repeat rewrite ?orb_true_iff, ?andb_true_iff, ?N.leb_le, ?N.eqb_eq in H.
  lia.
Qed.

(** X5: a city name made only of the characters that need no escape is
    sent as it is: [encodeURIComponent] returns it unchanged. *)
Theorem unreserved_name_unchanged (city : jsstring) :
  forallb uri_unescaped city = true ->
  encodeURIComponent city = Normal city.
Proof.
  unfold encodeURIComponent.
  induction city as [|c r IH]; intro H; [reflexivity|].
  cbn [forallb] in H. apply andb_true_iff in H. destruct H as [Hc Hr].
  pose proof (unescaped_is_ascii c Hc) as Hlt.
  cbn [code_points].
  assert (L : is_lead c = false).
  { unfold is_lead. apply andb_false_iff. left. apply N.leb_gt. lia. }
  assert (Tr : is_trail c = false).
  { unfold is_trail. apply andb_false_iff. left. apply N.leb_gt. lia. }
  rewrite L, Tr. cbn [encode]. rewrite (IH Hr), Hc. reflexivity.
Qed.

Lemma unreserved_name_unchanged_witness :
  encodeURIComponent (utf16 "Ivano-Frankivsk") = Normal (utf16 "Ivano-Frankivsk").
Proof.
  exact (unreserved_name_unchanged (utf16 "Ivano-Frankivsk") eq_refl).
Defined.

(** ** geocodeCity (lines 53-59) *)

(** X6: when the geocoding request delivers a body, [geocodeCity] returns
    the latitude, longitude and name of its first result and nothing of
    the others (nor the country); with no [results] or an empty array it
    returns null.  One request is made, to the geocoding URL of the
    encoded name. *)
Theorem geocodeCity_first_result
    (city name : jsstring) (net : network) (log : list event)
    (res : Response GeocodingResult) (d : GeocodingResult) :
  encodeURIComponent city = Normal name ->
  net AsGeocodingResult (geocoding_url name) = Normal res ->
  ok res = true ->
  json res = Normal d ->
  geocodeCity city net log
  = (Normal match results d with
            | Some (e :: _) =>
                Some {| place_latitude := entry_latitude e;
                        place_longitude := entry_longitude e;
                        place_name := Some (entry_name e) |}
            | Some [] | None => None
            end,
     log ++ [Fetched AsGeocodingResult (geocoding_url name)]).
Proof.
  intros He Hnet Hok Hjson. rewrite geocodeCity_cases, He.
  unfold delivered. rewrite Hnet.
  change (body AsGeocodingResult) with GeocodingResult.
  rewrite Hok, Hjson. unfold first_place.
  destruct (results d) as [[|e l]|]; reflexivity.
Qed.

Lemma geocodeCity_first_result_witness :
  geocodeCity (utf16 "Харків") half_down []
  = (Normal (Some {| place_latitude := entry_latitude kharkiv;
                     place_longitude := entry_longitude kharkiv;
                     place_name := Some (utf16 "Харків") |}),
     [Fetched AsGeocodingResult
        (utf16 "https://geocoding-api.open-meteo.com/v1/search?name=%D0%A5%D0%B0%D1%80%D0%BA%D1%96%D0%B2&count=1&language=uk")]).
Proof.
  exact (geocodeCity_first_result (utf16 "Харків")
           (utf16 "%D0%A5%D0%B0%D1%80%D0%BA%D1%96%D0%B2") half_down [] _
           {| results := Some [kharkiv; odesa] |}
           eq_refl eq_refl eq_refl eq_refl).
Defined.

(** X7: [geocodeCity] throws only for a city name with an unpaired
    surrogate: the exception is a URIError and nothing is requested or
    logged; for every other name it returns normally after exactly one
    request, whatever the network does. *)
Theorem geocodeCity_throws_only_on_surrogate
    (city : jsstring) (net : network) (log : list event) :
  if well_formed city
  then exists name r log',
         encodeURIComponent city = Normal name
         /\ geocodeCity city net log = (Normal r, log')
         /\ requests log' = requests log ++ [(AsGeocodingResult, geocoding_url name)]
  else geocodeCity city net log = (Throw URIError, log).
Proof.
  rewrite geocodeCity_cases.
  pose proof (encode_well_formed city) as H.
  destruct (well_formed city).
  - destruct H as [name ->]. exists name.
    destruct (delivered (net AsGeocodingResult (geocoding_url name)));
      eexists; eexists; (split; [reflexivity|]);
      (split; [reflexivity|]); rewrite requests_app; reflexivity.
  - rewrite H. reflexivity.
Qed.

(** ** formatForecastText (lines 77-106), beyond the sections *)

Lemma index_of_prefix (k : nat) (l l' : list jsval) (i : nat) :
  firstn k l = firstn k l' -> (i < k)%nat -> index l i = index l' i.
Proof.
  intros E Hi. unfold index.
  pose proof (nth_firstn k l i Undefined) as H1.
  pose proof (nth_firstn k l' i Undefined) as H2.
  apply Nat.ltb_lt in Hi. rewrite Hi in H1, H2.
  rewrite <- H1, <- H2, E. reflexivity.
Qed.

Lemma daily_section_visible (d d' : daily_record) :
  visible_daily d = visible_daily d' ->
  daily_section (Some d) = daily_section (Some d').
Proof.
  unfold visible_daily. cbv zeta. intro E.
  pose proof (f_equal (fun t => fst (fst (fst t))) E) as E1.
  pose proof (f_equal (fun t => snd (fst (fst t))) E) as E2.
  pose proof (f_equal (fun t => snd (fst t)) E) as E3.
  pose proof (f_equal (fun t => snd t) E) as E4.
  cbv beta iota delta [fst snd] in E1, E2, E3, E4. clear E.
  assert (Hk : Nat.min (length (or_empty (time d))) 7
               = Nat.min (length (or_empty (time d'))) 7).
  { apply (f_equal (@length _)) in E1. rewrite !length_firstn in E1. lia. }
  rewrite <- Hk in E2, E3, E4.
  unfold daily_section, day_lines. rewrite <- Hk.
  destruct (or_empty (time d)) as [|x l] eqn:Ed;
    destruct (or_empty (time d')) as [|x' l'] eqn:Ed';
    try discriminate E1; [reflexivity|].
  f_equal. apply map_ext_in. intros i Hi. apply in_seq in Hi.
  unfold daily_line.
  rewrite (index_of_prefix 7 (x :: l) (x' :: l') i E1) by lia.
  rewrite (index_of_prefix _ _ _ i E2) by lia.
  rewrite (index_of_prefix _ _ _ i E3) by lia.
  rewrite (index_of_prefix _ _ _ i E4) by lia.
  reflexivity.
Qed.

(** X8: the text is determined by the coordinates and the name passed
    in, by the temperature, wind speed, wind direction and time of the
    current record, by the first seven dates, and by the entries of the
    three other series at the positions of those dates.  The weather code,
    the coordinates and time zone of the payload, every eighth and later
    day, and the values beyond the last date, never show. *)
Theorem text_depends_on_visible
    (lat lon : number) (placeName : option jsstring)
    (data data' : OpenMeteoForecast) :
  visible data = visible data' ->
  formatForecastText lat lon data placeName
  = formatForecastText lat lon data' placeName.
Proof.
  unfold visible. intro E. injection E as Ec Ed.
  rewrite !formatForecastText_sections. f_equal. f_equal. f_equal.
  - destruct (current_weather data) as [c|];
      destruct (current_weather data') as [c'|]; try discriminate Ec;
      [|reflexivity].
    cbn [option_map] in Ec. injection Ec as E1 E2 E3 E4.
    unfold current_section. rewrite E1, E2, E3, E4. reflexivity.
  - destruct (daily data) as [d|]; destruct (daily data') as [d'|];
      try discriminate Ed; [|reflexivity].
    cbn [option_map] in Ed. apply daily_section_visible. congruence.
Qed.

Lemma text_depends_on_visible_witness :
  formatForecastText DEFAULT_LATITUDE DEFAULT_LONGITUDE
    {| latitude := literal 5045 2; longitude := literal 305 1;
       generationtime_ms := Some (literal 12 2);
       utc_offset_seconds := Some (literal 10800 0);
       timezone := Some (utf16 "Europe/Kyiv");
       current_weather :=
         Some {| cw_temperature := literal 215 1;
                 cw_windspeed := literal 10 0;
                 cw_winddirection := literal 270 0;
                 cw_weathercode := literal 95 0;
                 cw_time := utf16 "2024-05-01T12:00" |};
       daily := Some (days 9) |}
    None
  = formatForecastText DEFAULT_LATITUDE DEFAULT_LONGITUDE
      (payload (Some noon) (Some (days 7))) None.
Proof.
  apply text_depends_on_visible. reflexivity.
Defined.

(** X9: the formatter pushes between 2 and 13 lines: the header, one or
    four lines of current conditions, and nothing or the daily header
    with one to seven days. *)
Theorem line_count_bounds
    (lat lon : number) (data : OpenMeteoForecast) (placeName : option jsstring) :
  (2 <= length (formatForecastLines lat lon data placeName) <= 13)%nat.
Proof.
  rewrite formatForecastLines_sections. cbn [length]. rewrite length_app.
  assert (Hc : (1 <= length (current_section (current_weather data)) <= 4)%nat).
  { destruct (current_weather data); cbn; lia. }
  assert (Hd : (length (daily_section (daily data)) <= 8)%nat).
  { unfold daily_section. destruct (daily data) as [d|]; [|cbn; lia].
    destruct (or_empty (time d)) eqn:E; [cbn; lia|].
    cbn [length]. rewrite length_day_lines. lia. }
  lia.
Qed.

Lemma map_index_seq {B} (g : jsval -> B) (l : list jsval) (k : nat) :
  map (fun i => g (index l i)) (seq 0 (Nat.min (length l) k))
  = map g (firstn k l).
Proof.
  revert k. induction l as [|x r IH]; intro k.
  - rewrite firstn_nil. reflexivity.
  - destruct k as [|k]; [reflexivity|].
    cbn [length Nat.min seq map firstn]. f_equal.
    rewrite <- seq_shift, map_map. exact (IH k).
Qed.

(** X10: when the payload has dates but none of the three other series,
    a line is still pushed for each of the first seven dates, and each
    missing value reads "undefined". *)
Theorem missing_series_read_undefined
    (lat lon : number) (data : OpenMeteoForecast) (placeName : option jsstring)
    (d : daily_record) (x : jsval) (dates : list jsval) :
  daily data = Some d ->
  time d = Some (x :: dates) ->
  temperature_2m_max d = None ->
  temperature_2m_min d = None ->
  precipitation_sum d = None ->
  formatForecastLines lat lon data placeName
  = (header lat lon placeName :: current_section (current_weather data))
      ++ (LF :: utf16 "Денний прогноз:")
      :: map (fun date =>
                ToString date
                  ++ utf16 " — Температура: undefined…undefined °C, опади: undefined мм")
             (firstn 7 (x :: dates)).
Proof.
  intros Hd Ht H1 H2 H3.
  rewrite formatForecastLines_sections, Hd.
  unfold daily_section, day_lines. rewrite Ht, H1, H2, H3.
  cbn [or_empty app]. f_equal. f_equal. f_equal.
  rewrite <- (map_index_seq _ (x :: dates) 7).
  apply map_ext. intro i. unfold daily_line.
  assert (Hu : index [] i = Undefined) by (destruct i; reflexivity).
  rewrite Hu. f_equal.
Qed.

Lemma missing_series_read_undefined_witness :
  length (formatForecastLines DEFAULT_LATITUDE DEFAULT_LONGITUDE
            (payload None (Some (dates_only 3))) None) = 6%nat.
Proof.
  rewrite (missing_series_read_undefined DEFAULT_LATITUDE DEFAULT_LONGITUDE
             (payload None (Some (dates_only 3))) None (dates_only 3)
             _ _ eq_refl eq_refl eq_refl eq_refl eq_refl).
  reflexivity.
Defined.

(** ** The handler (lines 117-158), run by run *)

Lemma request_failed_text :
  request_failed = failed T ++ utf16 ": помилка при отриманні даних".
Proof. unfold request_failed. reflexivity. Qed.

Lemma city_not_found_text (city : jsstring) :
  city_not_found city
  = failed T ++ utf16 ": не знайдено місто '" ++ city ++ utf16 "'".
Proof. unfold city_not_found. reflexivity. Qed.

Lemma forecast_shape (args : arguments) (pre : list event) (la lo : number)
    (placeName : option jsstring) (net : network) :
  before_forecast args pre ->
  run_shape args (forecast (Some la, Some lo, placeName) net pre).
Proof.
  intro Hpre. rewrite forecast_cases.
  destruct (delivered (net AsOpenMeteoForecast
                           (forecast_url (Some la) (Some lo)))) as [e|data].
  - rewrite <- request_failed_text. exact (Failed args pre la lo e Hpre).
  - exact (Forecast args pre la lo data placeName Hpre).
Qed.

Lemma handler_run_shape (net : network) (args : arguments) :
  run_shape args (run net (handler args)).
Proof.
  unfold run. rewrite handler_by_branch.
  destruct (chosen_branch (arg_city args) (arg_latitude args)
                          (arg_longitude args)) as [la lo|city|] eqn:B.
  - apply forecast_shape. left. reflexivity.
  - assert (Hc : consulted_city args = Some city).
    { unfold consulted_city. rewrite B. reflexivity. }
    unfold bind. rewrite geocodeCity_cases.
    pose proof (encode_well_formed city) as Henc.
    destruct (well_formed city) eqn:W.
    + destruct Henc as [name Hname]. rewrite Hname.
      destruct (delivered (net AsGeocodingResult (geocoding_url name)))
        as [e|d].
      * unfold ret. rewrite <- city_not_found_text.
        exact (NotFound args city name
                 [ConsoleError (utf16 "Request error") e] Hc Hname
                 (or_intror (ex_intro _ e eq_refl))).
      * destruct (first_place d) as [g|].
        -- apply forecast_shape. right. exists city, name. auto.
        -- unfold ret. rewrite <- city_not_found_text.
           exact (NotFound args city name [] Hc Hname (or_introl eq_refl)).
    + rewrite Henc. exact (Thrown args city Hc W).
  - apply forecast_shape. left. reflexivity.
Qed.



Lemma formatter_text_is_no_failure (lat lon : number)
    (data : OpenMeteoForecast) (placeName : option jsstring) (rest : jsstring) :
  formatForecastText lat lon data placeName <> failed T ++ rest.
Proof.
  destruct (text_starts_with_header lat lon data placeName) as [r ->].
  intro E. apply (f_equal (hd 0%N)) in E. unfold header in E.
  destruct placeName as [[|c cs]|]; vm_compute in E; discriminate E.
Qed.

(** X13: when a request error was reported during a run that returns,
    the text returned starts with the failure label "Не вдалося отримати
    дані" and is no text of the formatter: a failed request never yields
    a forecast. *)
Theorem reported_error_means_failure
    (net : network) (args : arguments) (r : tool_result) (log : list event) :
  run net (handler args) = (Normal r, log) ->
  reported log <> [] ->
  exists rest,
    r = text_result (failed T ++ rest)
    /\ forall lat lon data placeName,
         failed T ++ rest <> formatForecastText lat lon data placeName.
Proof.
  intros Hrun Hrep.
  pose proof (handler_run_shape net args) as S. rewrite Hrun in S.
  assert (G : exists rest, r = text_result (failed T ++ rest)).
  { inversion S as [|city name errs Hc Hn He|pre lat lon e Hpre
                    |pre lat lon data placeName Hpre]; subst.
    - rewrite city_not_found_text. eexists. reflexivity.
    - rewrite request_failed_text. eexists. reflexivity.
    - exfalso. apply Hrep. rewrite reported_app.
      destruct Hpre as [->|(city & name & _ & _ & ->)]; reflexivity. }
  destruct G as [rest ->]. exists rest. split; [reflexivity|].
  intros lat lon data placeName E. symmetry in E.
  exact (formatter_text_is_no_failure _ _ _ _ _ E).
Qed.

Lemma reported_error_means_failure_witness :
  exists rest,
    text_result request_failed = text_result (failed T ++ rest).
Proof.
  destruct (reported_error_means_failure half_down
              (for_city (utf16 "Харків")) (text_result request_failed) _
              eq_refl ltac:(discriminate)) as [rest [E _]].
  exists rest. exact E.
Defined.

(** X14: with a latitude and a longitude that are both truthy the city is
    not looked at: the run is the same with any city or none, its only
    request is the forecast request for the two coordinates as given, and
    no geocoding request is made. *)
Theorem explicit_coordinates_ignore_city
    (city : option jsstring) (la lo : number) (net : network) :
  truthy_number la = true ->
  truthy_number lo = true ->
  run net (handler {| arg_city := city; arg_latitude := Some la;
                      arg_longitude := Some lo |})
  = run net (handler {| arg_city := None; arg_latitude := Some la;
                        arg_longitude := Some lo |})
  /\ requests (snd (run net (handler {| arg_city := city;
                                        arg_latitude := Some la;
                                        arg_longitude := Some lo |})))
     = [(AsOpenMeteoForecast, forecast_url (Some la) (Some lo))].
Proof.
  intros Ha Ho. unfold run. rewrite !handler_by_branch.
  unfold chosen_branch. cbv beta iota delta [arg_city arg_latitude arg_longitude].
  rewrite Ha, Ho. cbn [andb]. split; [reflexivity|].
  rewrite forecast_cases.
  destruct (delivered (net AsOpenMeteoForecast
                           (forecast_url (Some la) (Some lo))));
    reflexivity.
Qed.

Lemma explicit_coordinates_ignore_city_witness :
  requests (snd (run nowhere
                   (handler {| arg_city := Some (utf16 "Atlantis");
                               arg_latitude := Some (literal 4984 2);
                               arg_longitude := Some (literal 2403 2) |})))
  = [(AsOpenMeteoForecast,
      forecast_url (Some (literal 4984 2)) (Some (literal 2403 2)))].
Proof.
  exact (proj2 (explicit_coordinates_ignore_city (Some (utf16 "Atlantis"))
                  (literal 4984 2) (literal 2403 2) nowhere
                  eq_refl eq_refl)).
Defined.

(** X15: when the geocoder is consulted and its request delivers a first
    result, the handler goes on exactly as the forecast step does for the
    latitude, longitude and name of that result, after the geocoding
    request: the coordinates of the arguments, if any, are not used. *)
Theorem geocoded_place_is_used
    (args : arguments) (city name : jsstring) (net : network)
    (res : Response GeocodingResult) (d : GeocodingResult)
    (e : geocoding_entry) (others : list geocoding_entry) :
  consulted_city args = Some city ->
  encodeURIComponent city = Normal name ->
  net AsGeocodingResult (geocoding_url name) = Normal res ->
  ok res = true ->
  json res = Normal d ->
  results d = Some (e :: others) ->
  run net (handler args)
  = forecast (Some (entry_latitude e), Some (entry_longitude e),
              Some (entry_name e))
             net [Fetched AsGeocodingResult (geocoding_url name)].
Proof.
  intros Hc Hn Hnet Hok Hjson Hres.
  unfold run. rewrite handler_by_branch.
  unfold consulted_city in Hc.
  destruct (chosen_branch (arg_city args) (arg_latitude args)
                          (arg_longitude args)) as [la lo|c|];
    try discriminate Hc.
  injection Hc as ->.
  unfold bind. rewrite geocodeCity_cases, Hn.
  unfold delivered. rewrite Hnet.
  change (body AsGeocodingResult) with GeocodingResult.
  rewrite Hok, Hjson. unfold first_place. rewrite Hres. reflexivity.
Qed.

Lemma geocoded_place_is_used_witness :
  run half_down
      (handler {| arg_city := Some (utf16 "Харків");
                  arg_latitude := Some (literal 10 0);
                  arg_longitude := None |})
  = (Normal (text_result request_failed),
     [ Fetched AsGeocodingResult
         (geocoding_url (utf16 "%D0%A5%D0%B0%D1%80%D0%BA%D1%96%D0%B2"));
       Fetched AsOpenMeteoForecast
         (utf16 "https://api.open-meteo.com/v1/forecast?latitude=49.9808&longitude=36.2527&current_weather=true&daily=temperature_2m_max%2Ctemperature_2m_min%2Cprecipitation_sum&timezone=Europe%2FKyiv&temperature_unit=celsius&windspeed_unit=kmh");
       ConsoleError (utf16 "Request error")
                    (Error (utf16 "HTTP 503 Service Unavailable")) ]).
Proof.
  rewrite (geocoded_place_is_used
             {| arg_city := Some (utf16 "Харків");
                arg_latitude := Some (literal 10 0);
                arg_longitude := None |}
             (utf16 "Харків") (utf16 "%D0%A5%D0%B0%D1%80%D0%BA%D1%96%D0%B2")
             half_down _ {| results := Some [kharkiv; odesa] |} kharkiv [odesa]
             eq_refl eq_refl eq_refl eq_refl eq_refl eq_refl).
  vm_compute. reflexivity.
Defined.

(** ** The schema of the parameters (lines 112-116) and the handler *)


(** A number between two finite bounds is +0, -0 or a finite number whose
    signed value lies between them. *)
Lemma between_finite (lo hi : number) (nl nh : Z) (dl dh : N) (x : number) :
  value lo = Some (Finite nl dl) ->
  value hi = Some (Finite nh dh) ->
  optional_number_between lo hi (Some x) = true ->
  match x with
  | S754_zero _ => True
  | S754_finite s m e =>
      forall p q, magnitude m e = (p, q) ->
        (nl * Z.of_N q <= (if s then - Z.of_N p else Z.of_N p) * Z.of_N dl)%Z
        /\ ((if s then - Z.of_N p else Z.of_N p) * Z.of_N dh <= nh * Z.of_N q)%Z
  | _ => False
  end.
Proof.
  intros Hlo Hhi H. unfold optional_number_between, number_le in H.
  rewrite Hlo, Hhi in H. apply andb_true_iff in H. destruct H as [H1 H2].
  destruct x as [s|s| |s m e]; cbn [value] in H1, H2.
  - exact I.
  - destruct s; cbn in H1, H2; discriminate.
  - discriminate H1.
  - intros p q M. rewrite M in H1, H2. cbn [extended_le] in H1, H2.
    apply Z.leb_le in H1, H2. split; assumption.
Qed.

Lemma accepted_is_finite (lo hi : number) (nl nh : Z) (dl dh : N) (x : number) :
  value lo = Some (Finite nl dl) ->
  value hi = Some (Finite nh dh) ->
  optional_number_between lo hi (Some x) = true ->
  truthy_number x = negb (is_zero x).
Proof.
  intros Hlo Hhi H. pose proof (between_finite _ _ _ _ _ _ x Hlo Hhi H) as B.
  destruct x; try contradiction; reflexivity.
Qed.

(** X16: for arguments the schema admits, no coordinate is NaN or
    infinite, so the explicit coordinates are used exactly when both are
    given and neither is +0 or -0; otherwise the city, if it is a
    non-empty string, and else the default. *)
Theorem accepted_arguments_branch (args : arguments) :
  accepts args = true ->
  chosen_branch (arg_city args) (arg_latitude args) (arg_longitude args)
  = match arg_latitude args, arg_longitude args with
    | Some la, Some lo =>
        if is_zero la || is_zero lo then fallback (arg_city args)
        else Explicit la lo
    | _, _ => fallback (arg_city args)
    end.
Proof.
  unfold accepts. intro H. apply andb_true_iff in H. destruct H as [Ha Ho].
  unfold chosen_branch.
  destruct (arg_latitude args) as [la|]; [|reflexivity].
  destruct (arg_longitude args) as [lo|]; [|reflexivity].
  destruct (value (literal (-90) 0)) as [[|n1 d1|]|] eqn:E1;
    try (vm_compute in E1; discriminate E1).
  destruct (value (literal 90 0)) as [[|n2 d2|]|] eqn:E2;
    try (vm_compute in E2; discriminate E2).
  destruct (value (literal (-180) 0)) as [[|n3 d3|]|] eqn:E3;
    try (vm_compute in E3; discriminate E3).
  destruct (value (literal 180 0)) as [[|n4 d4|]|] eqn:E4;
    try (vm_compute in E4; discriminate E4).
  rewrite (accepted_is_finite _ _ _ _ _ _ la E1 E2 Ha).
  rewrite (accepted_is_finite _ _ _ _ _ _ lo E3 E4 Ho).
  destruct (is_zero la), (is_zero lo); reflexivity.
Qed.

Lemma accepted_arguments_branch_witness :
  chosen_branch (Some (utf16 "Львів")) (Some (S754_zero false))
                (Some (literal 2403 2))
  = Geocode (utf16 "Львів").
Proof.
  exact (accepted_arguments_branch
           {| arg_city := Some (utf16 "Львів");
              arg_latitude := Some (S754_zero false);
              arg_longitude := Some (literal 2403 2) |} eq_refl).
Defined.



(** X18: a run reports at most one request error, and the report is the
    last event of its log: after a failed request nothing more is
    requested, neither a retry nor the forecast. *)
Theorem nothing_after_an_error (net : network) (args : arguments) :
  match reported (snd (run net (handler args))) with
  | [] => True
  | [e] =>
      exists pre,
        snd (run net (handler args))
        = pre ++ [ConsoleError (utf16 "Request error") e]
  | _ :: _ :: _ => False
  end.
Proof.
  destruct (handler_run_shape net args)
    as [city Hc W|city name errs Hc Hn He|pre lat lon e Hpre
        |pre lat lon data placeName Hpre]; cbn [snd].
  - exact I.
  - destruct He as [->|[e ->]]; cbn.
    + exact I.
    + exists [Fetched AsGeocodingResult (geocoding_url name)]. reflexivity.
  - rewrite reported_app.
    assert (Hp : reported pre = []).
    { destruct Hpre as [->|(city & name & _ & _ & ->)]; reflexivity. }
    rewrite Hp. cbn.
    exists (pre ++ [Fetched AsOpenMeteoForecast
                      (forecast_url (Some lat) (Some lon))]).
    rewrite <- app_assoc. reflexivity.
  - rewrite reported_app.
    assert (Hp : reported pre = []).
    { destruct Hpre as [->|(city & name & _ & _ & ->)]; reflexivity. }
    rewrite Hp. exact I.
Qed.
